(** * MotorKnob driver: register codec and sysfs attribute registry

  A shallow embedding of [motorknob_driver.c].  The first half models the
  register codec ([motorknob_write], [motorknob_read] and the sysfs
  handlers built on them) over an abstract SMBus client.  The second half
  models the kobject/sysfs calls the driver makes and the two lifecycle
  functions [setup_sysfs] and [destory_sysfs]. *)

From Stdlib Require Import ZArith Lia.
From Stdlib.Strings Require Import Byte.
From stdpp Require Import gmap strings list fin_maps.

Local Open Scope Z_scope.

(** ** C integer types *)

Module CInt.

(** Conversion to an unsigned type of [w] bits. *)
Definition to_unsigned (w : Z) (x : Z) : Z := x mod 2 ^ w.

(** Conversion to a signed type of [w] bits (two's complement, as gcc
    defines the out-of-range case). *)
Definition to_signed (w : Z) (x : Z) : Z :=
  (x + 2 ^ (w - 1)) mod 2 ^ w - 2 ^ (w - 1).

Definition u8 : Z -> Z := to_unsigned 8.
Definition u16 : Z -> Z := to_unsigned 16.

(** [size_t] and [ssize_t] of an LP64 kernel. *)
Definition BITS_PER_LONG : Z := 64.
Definition SSIZE_MAX : Z := 2 ^ (BITS_PER_LONG - 1) - 1.
Definition ssize_t_of_size_t (n : Z) : Z := to_signed BITS_PER_LONG n.

(** Plain [char] is signed or unsigned as the compiler decides.  The kernel
    is built with [-funsigned-char] since v6.2, and this driver needs v6.3
    or later (its [probe] callback takes the client only), so the driver's
    [char] is the unsigned one, [kernel_char]. *)
Inductive char_signedness := UnsignedChar | SignedChar.

Definition kernel_char : char_signedness := UnsignedChar.

Definition byte_to_Z (b : byte) : Z := Z.of_N (Byte.to_N b).

(** The value of a [char] object holding the byte [b], promoted to [int]. *)
Definition char_to_int (cs : char_signedness) (b : byte) : Z :=
  match cs with
  | UnsignedChar => byte_to_Z b
  | SignedChar => to_signed 8 (byte_to_Z b)
  end.

(** The byte stored by an assignment of an [u8] value to a [char] object. *)
Definition byte_of_Z (z : Z) : byte :=
  match Byte.of_N (Z.to_N (u8 z)) with
  | Some b => b
  | None => x00
  end.

End CInt.
Import CInt.

(** ** Error numbers *)

Definition EINVAL : Z := 22.
Definition ENOMEM : Z := 12.
Definition EEXIST : Z := 17.

(** ** Command structure *)

Definition WRITE_REQUEST : Z := 0x80.      (* 0b10000000 *)

Definition DATA_START_POS : Z := 0x00.     (* 0b00000000 *)
Definition DATA_END_POS : Z := 0x01.       (* 0b00000001 *)
Definition DATA_DETENTS : Z := 0x02.       (* 0b00000010 *)
Definition DATA_CURRENT_POS : Z := 0x03.   (* 0b00000011 *)

Definition WRITE_START_POS : Z := Z.lor WRITE_REQUEST DATA_START_POS.
Definition WRITE_END_POS : Z := Z.lor WRITE_REQUEST DATA_END_POS.
Definition WRITE_DETENTS : Z := Z.lor WRITE_REQUEST DATA_DETENTS.

(** ** The SMBus collaborator *)

(** The bound client, [motorknob_client].  The two word transfers are the
  kernel's; each returns an [s32]: a negative errno, or zero (write) or the
  word read (read). *)
Record i2c_client := {
  i2c_smbus_write_word_data : Z -> Z -> Z;
  i2c_smbus_read_word_data : Z -> Z
}.

(** What was put on the bus, in order. *)
Inductive bus_event :=
| SmbusWriteWord (command : Z) (value : Z)
| SmbusReadWord (command : Z).

(** ** The kobject and sysfs collaborator *)

(** The kernel calls the driver makes, after [lib/kobject.c] and
    [fs/sysfs/file.c]: kobjects are reference counted, a kobject holds a
    reference on its parent from the moment it is added until it is
    released, and releasing a kobject removes its directory with the
    attribute files in it.  Only the kobjects under [/sys/motorknob] are
    kept. *)

(** The driver keeps two [struct kobject *] in globals.  A kobject is named
    here by its place in sysfs ([/sys/motorknob], [/sys/motorknob/profile]),
    which is unique among live kobjects.  When a kobject is freed every
    pointer to it becomes indeterminate, [StalePtr]. *)
Inductive kobj_ptr :=
| NullPtr
| ObjPtr (path : string)
| StalePtr.

#[global] Instance kobj_ptr_eq_dec : EqDecision kobj_ptr.
Proof. solve_decision. Defined.

(** A live kobject: its parent (on which it holds a reference), its
    reference count and the attribute files in its directory. *)
Record kobject := {
  kobj_parent : kobj_ptr;
  kref : nat;
  kobj_files : gset string
}.

#[global] Instance kobject_eq_dec : EqDecision kobject.
Proof. solve_decision. Defined.

(** [struct attribute]: what sysfs sees of a [kobj_attribute]. *)
Record attribute := {
  attr_name : string;
  attr_mode : Z
}.

Inductive kevent :=
| EvKobjectAdd (path : string)
| EvKobjectAddFailed (name : string)
| EvPut (p : kobj_ptr)
| EvUnref (path : string)
| EvRelease (path : string)
| EvCreateFile (path : string) (name : string)
| EvCreateFileFailed (p : kobj_ptr) (name : string) (status : Z)
| EvRemoveFile (path : string) (name : string).

#[global] Instance kevent_eq_dec : EqDecision kevent.
Proof. solve_decision. Defined.

(** The state the lifecycle functions run in: the live kobjects under
    [/sys], the driver's two globals, and the outcome of the allocations
    still to come ([true] is a failure; past the end of the list every
    allocation succeeds). *)
Record world := {
  objects : gmap string kobject;
  faults : list bool;
  motorknob_kobj : kobj_ptr;
  motorknob_profile_kobj : kobj_ptr
}.

Definition set_objects (f : gmap string kobject -> gmap string kobject) (w : world) : world :=
  {| objects := f (objects w); faults := faults w;
     motorknob_kobj := motorknob_kobj w;
     motorknob_profile_kobj := motorknob_profile_kobj w |}.

Definition set_faults (fs : list bool) (w : world) : world :=
  {| objects := objects w; faults := fs;
     motorknob_kobj := motorknob_kobj w;
     motorknob_profile_kobj := motorknob_profile_kobj w |}.

Definition set_motorknob_kobj (p : kobj_ptr) (w : world) : world :=
  {| objects := objects w; faults := faults w;
     motorknob_kobj := p;
     motorknob_profile_kobj := motorknob_profile_kobj w |}.

Definition set_motorknob_profile_kobj (p : kobj_ptr) (w : world) : world :=
  {| objects := objects w; faults := faults w;
     motorknob_kobj := motorknob_kobj w;
     motorknob_profile_kobj := p |}.

(** What a call leaves behind: the value it returned, or [None] when it
    went wrong (an oops: a [NULL] or stale pointer was dereferenced); the
    world afterwards; and its trail, the events of the call in order, each
    with the kobjects as they were right after it. *)
Record outcome (A : Type) := Outcome {
  returned : option A;
  after : world;
  trail : list (kevent * gmap string kobject)
}.
Arguments Outcome {A} returned after trail.
Arguments returned {A} o.
Arguments after {A} o.
Arguments trail {A} o.

Definition kern (A : Type) : Type := world -> outcome A.

#[global] Instance kern_ret : MRet kern := fun A a w => Outcome (Some a) w [].
#[global] Instance kern_bind : MBind kern := fun A B f m w =>
  let o := m w in
  match returned o with
  | Some a =>
      let o' := f a (after o) in
      Outcome (returned o') (after o') (trail o ++ trail o')
  | None => Outcome None (after o) (trail o)
  end.

Definition oops {A : Type} : kern A := fun w => Outcome None w [].
Definition update (f : world -> world) : kern unit := fun w => Outcome (Some ()) (f w) [].
Definition emit (e : kevent) : kern unit := fun w => Outcome (Some ()) w [(e, objects w)].
Definition gets {A : Type} (f : world -> A) : kern A := fun w => Outcome (Some (f w)) w [].

(** Reads a global and hands it to a call. *)
Definition reading {A : Type} (global : world -> kobj_ptr) (call : kobj_ptr -> kern A) : kern A :=
  fun w => call (global w) w.

(** Dereferences a kobject pointer. *)
Definition deref (p : kobj_ptr) : kern (string * kobject) :=
  match p with
  | ObjPtr path =>
      o ← gets objects;
      match o !! path with
      | Some k => mret (path, k)
      | None => oops
      end
  | NullPtr | StalePtr => oops
  end.

(** The next allocation: does it fail? *)
Definition next_fault : kern bool :=
  plan ← gets faults;
  match plan with
  | [] => mret false
  | b :: plan' => update (set_faults plan');; mret b
  end.

Definition kobject_get (p : kobj_ptr) (o : gmap string kobject) : gmap string kobject :=
  match p with
  | ObjPtr path =>
      alter (fun k => {| kobj_parent := kobj_parent k; kref := S (kref k);
                         kobj_files := kobj_files k |}) path o
  | NullPtr | StalePtr => o
  end.

(** [kobject_create_and_add(name, parent)]: allocates a kobject and adds it
    to sysfs under [parent] ([NULL]: directly under [/sys]), taking a
    reference on the parent.  Returns [NULL] when the allocation fails or the
    name is taken ([-EEXIST] inside). *)
Definition kobject_create_and_add (name : string) (parent : kobj_ptr) : kern kobj_ptr :=
  fail ← next_fault;
  if fail : bool then
    emit (EvKobjectAddFailed name);;
    mret NullPtr
  else
    dir ← match parent with
          | NullPtr => mret "/sys"
          | _ => k ← deref parent; mret (fst k)
          end;
    let path := dir +:+ "/" +:+ name in
    o ← gets objects;
    if bool_decide (is_Some (o !! path)) then
      emit (EvKobjectAddFailed name);;
      mret NullPtr
    else
      update (set_objects (fun o =>
        <[path := {| kobj_parent := parent; kref := 1; kobj_files := ∅ |}]>
          (kobject_get parent o)));;
      emit (EvKobjectAdd path);;
      mret (ObjPtr path).

Definition poison (path : string) (p : kobj_ptr) : kobj_ptr :=
  match p with
  | ObjPtr q => if decide (q = path) then StalePtr else p
  | NullPtr | StalePtr => p
  end.

(** The last reference is gone: the kobject leaves sysfs with the files in
    its directory and is freed. *)
Definition release (path : string) : kern unit :=
  update (fun w =>
    {| objects := delete path (objects w); faults := faults w;
       motorknob_kobj := poison path (motorknob_kobj w);
       motorknob_profile_kobj := poison path (motorknob_profile_kobj w) |});;
  emit (EvRelease path).

(** Drops one reference; the kobject that loses its last one is released
    and then drops its reference on its parent.  [fuel] bounds the walk up
    the parents: one more than the number of live kobjects is enough, and
    running out of it counts as going wrong. *)
Fixpoint kobject_unref (fuel : nat) (p : kobj_ptr) : kern unit :=
  match fuel with
  | O => oops
  | S fuel' =>
      match p with
      | NullPtr => mret ()
      | _ =>
          k ← deref p;
          match kref (snd k) with
          | S (S n) =>
              update (set_objects (<[fst k :=
                {| kobj_parent := kobj_parent (snd k); kref := S n;
                   kobj_files := kobj_files (snd k) |}]>));;
              emit (EvUnref (fst k))
          | _ =>
              release (fst k);;
              kobject_unref fuel' (kobj_parent (snd k))
          end
      end
  end.

(** [kobject_put(kobj)]; a [NULL] argument is ignored. *)
Definition kobject_put (p : kobj_ptr) : kern unit :=
  emit (EvPut p);;
  live ← gets (fun w => size (objects w));
  kobject_unref (S live) p.

(** [sysfs_create_file(kobj, attr)]: 0, or a negative errno ([-EINVAL] with
    a warning for a [NULL] kobject, [-ENOMEM], [-EEXIST]). *)
Definition sysfs_create_file (kobj : kobj_ptr) (attr : attribute) : kern Z :=
  match kobj with
  | NullPtr =>
      emit (EvCreateFileFailed kobj (attr_name attr) (- EINVAL));;
      mret (- EINVAL)
  | _ =>
      k ← deref kobj;
      fail ← next_fault;
      if fail : bool then
        emit (EvCreateFileFailed kobj (attr_name attr) (- ENOMEM));;
        mret (- ENOMEM)
      else if bool_decide (attr_name attr ∈ kobj_files (snd k)) then
        emit (EvCreateFileFailed kobj (attr_name attr) (- EEXIST));;
        mret (- EEXIST)
      else
        update (set_objects (<[fst k :=
          {| kobj_parent := kobj_parent (snd k); kref := kref (snd k);
             kobj_files := {[attr_name attr]} ∪ kobj_files (snd k) |}]>));;
        emit (EvCreateFile (fst k) (attr_name attr));;
        mret 0
  end.

(** [sysfs_remove_file(kobj, attr)] reads [kobj->sd] without a check for
    [NULL]; a file that is not there is not an error. *)
Definition sysfs_remove_file (kobj : kobj_ptr) (attr : attribute) : kern unit :=
  k ← deref kobj;
  update (set_objects (<[fst k :=
    {| kobj_parent := kobj_parent (snd k); kref := kref (snd k);
       kobj_files := kobj_files (snd k) ∖ {[attr_name attr]} |}]>));;
  emit (EvRemoveFile (fst k) (attr_name attr)).

(** [struct kobj_attribute], as [__ATTR(name, mode, show, store)] fills it;
    a [NULL] handler is [None]. *)
Record kobj_attribute := {
  attr : attribute;
  show : option (list byte -> option (Z * list byte * list bus_event));
  store : option (list byte -> Z -> option (Z * list bus_event))
}.

Definition __ATTR (name : string) (mode : Z)
    (show : option (list byte -> option (Z * list byte * list bus_event)))
    (store : option (list byte -> Z -> option (Z * list bus_event))) : kobj_attribute :=
  {| attr := {| attr_name := name; attr_mode := mode |};
     show := show; store := store |}.

(** ** Register codec *)

(** A C array access; [None] is an access outside the object. *)
Definition store_char (buffer : list byte) (i : nat) (v : Z) : option (list byte) :=
  if decide (i < length buffer)%nat then Some (<[i := byte_of_Z v]> buffer) else None.

Section Driver.

Variable plain_char : char_signedness.
Variable motorknob_client : i2c_client.

(** Writes a word (16 bit) to the MotorKnob, from the first and second
    element of the buffer.  The result is the [ssize_t] returned and the bus
    traffic; [None] stands for a read outside [user_buffer]. *)
Definition motorknob_write (reg : Z) (user_buffer : list byte) (count : Z)
  : option (Z * list bus_event) :=
  let reg := u8 reg in
  if count <? 2 then Some (- EINVAL, [])
  else
    b0 ← user_buffer !! 0%nat;
    b1 ← user_buffer !! 1%nat;
    let word := u16 (Z.shiftl (u16 (char_to_int plain_char b0)) 8) in
    let word := u16 (Z.lxor word (char_to_int plain_char b1)) in
    let ret := i2c_smbus_write_word_data motorknob_client reg word in
    if ret <? 0 then Some (ret, [SmbusWriteWord reg word])
    else Some (ssize_t_of_size_t count, [SmbusWriteWord reg word]).

(** Reads a word (16 bit) from the MotorKnob.  The result is the [ssize_t]
    returned, the buffer afterwards and the bus traffic; [None] stands for
    a store outside [user_buffer]. *)
Definition motorknob_read (reg : Z) (user_buffer : list byte)
  : option (Z * list byte * list bus_event) :=
  let reg := u8 reg in
  let result := i2c_smbus_read_word_data motorknob_client reg in
  if result <? 0 then Some (result, user_buffer, [SmbusReadWord reg])
  else
    buffer1 ← store_char user_buffer 0 (u8 result);
    buffer2 ← store_char buffer1 1 (u8 (Z.shiftr result 8));
    Some (2, buffer2, [SmbusReadWord reg]).

(** The sysfs handlers; their [kobj] and [attr] arguments are unused. *)
Definition read_detents (buffer : list byte) :=
  motorknob_read DATA_DETENTS buffer.
Definition write_detents (buffer : list byte) (count : Z) :=
  motorknob_write WRITE_DETENTS buffer count.
Definition read_start_position (buffer : list byte) :=
  motorknob_read DATA_START_POS buffer.
Definition write_start_position (buffer : list byte) (count : Z) :=
  motorknob_write WRITE_START_POS buffer count.
Definition read_end_position (buffer : list byte) :=
  motorknob_read DATA_END_POS buffer.
Definition write_end_position (buffer : list byte) (count : Z) :=
  motorknob_write WRITE_END_POS buffer count.
Definition read_position (buffer : list byte) :=
  motorknob_read DATA_CURRENT_POS buffer.

(* sysfs files *)
Definition detent_attr : kobj_attribute :=
  __ATTR "detents" 432 (* 0660 *) (Some read_detents) (Some write_detents).
Definition start_pos_attr : kobj_attribute :=
  __ATTR "start_position" 432 (* 0660 *) (Some read_start_position) (Some write_start_position).
Definition end_pos_attr : kobj_attribute :=
  __ATTR "end_position" 432 (* 0660 *) (Some read_end_position) (Some write_end_position).
Definition position_attr : kobj_attribute :=
  __ATTR "position" 288 (* 0440 *) (Some read_position) None. (* only read *)

(** Creates sysfs entries including error handling. *)
Definition setup_sysfs : kern Z :=
  k ← kobject_create_and_add "motorknob" NullPtr;
  update (set_motorknob_kobj k);;
  root ← gets motorknob_kobj;
  if decide (root = NullPtr) then mret (- ENOMEM)
  else
  k ← reading motorknob_kobj (kobject_create_and_add "profile");
  update (set_motorknob_profile_kobj k);;
  profile ← gets motorknob_profile_kobj;
  if decide (profile = NullPtr) then
    reading motorknob_kobj kobject_put;;
    mret (- ENOMEM)
  else
  r ← reading motorknob_profile_kobj (fun p => sysfs_create_file p (attr detent_attr));
  if decide (r ≠ 0) then
    reading motorknob_kobj kobject_put;;
    reading motorknob_profile_kobj kobject_put;;
    mret (- ENOMEM)
  else
  r ← reading motorknob_profile_kobj (fun p => sysfs_create_file p (attr start_pos_attr));
  if decide (r ≠ 0) then
    reading motorknob_profile_kobj (fun p => sysfs_remove_file p (attr detent_attr));;
    reading motorknob_profile_kobj kobject_put;;
    reading motorknob_kobj kobject_put;;
    mret (- ENOMEM)
  else
  r ← reading motorknob_profile_kobj (fun p => sysfs_create_file p (attr end_pos_attr));
  if decide (r ≠ 0) then
    reading motorknob_profile_kobj (fun p => sysfs_remove_file p (attr detent_attr));;
    reading motorknob_profile_kobj (fun p => sysfs_remove_file p (attr start_pos_attr));;
    reading motorknob_profile_kobj kobject_put;;
    reading motorknob_kobj kobject_put;;
    mret (- ENOMEM)
  else
  r ← reading motorknob_kobj (fun p => sysfs_create_file p (attr position_attr));
  if decide (r ≠ 0) then
    reading motorknob_profile_kobj (fun p => sysfs_remove_file p (attr detent_attr));;
    reading motorknob_profile_kobj (fun p => sysfs_remove_file p (attr start_pos_attr));;
    reading motorknob_profile_kobj (fun p => sysfs_remove_file p (attr end_pos_attr));;
    reading motorknob_profile_kobj kobject_put;;
    reading motorknob_kobj kobject_put;;
    mret (- ENOMEM)
  else
  mret 0.

(** Removes all sysfs entries. *)
Definition destory_sysfs : kern unit :=
  reading motorknob_profile_kobj (fun p => sysfs_remove_file p (attr detent_attr));;
  reading motorknob_profile_kobj (fun p => sysfs_remove_file p (attr start_pos_attr));;
  reading motorknob_profile_kobj (fun p => sysfs_remove_file p (attr end_pos_attr));;
  reading motorknob_kobj (fun p => sysfs_remove_file p (attr position_attr));;
  reading motorknob_profile_kobj kobject_put;;
  reading motorknob_kobj kobject_put.

End Driver.

(** ** Observations used in the statements *)

(** An example client: every transfer succeeds and every register reads
    [0x1234]. *)
Definition ack_client : i2c_client :=
  {| i2c_smbus_write_word_data := fun _ _ => 0;
     i2c_smbus_read_word_data := fun _ => 0x1234 |}.

(** An example client whose transfers all fail with [-EIO]. *)
Definition nak_client : i2c_client :=
  {| i2c_smbus_write_word_data := fun _ _ => -5;
     i2c_smbus_read_word_data := fun _ => -5 |}.

(** The word [motorknob_write] is specified to send for the bytes [b0], [b1]. *)
Definition payload_word (b0 b1 : byte) : Z :=
  Z.lxor (Z.shiftl (byte_to_Z b0) 8) (byte_to_Z b1).

(** The attribute [a] reads register address [r]: its [show] handler puts
    exactly one read of [r] on the bus, whatever the client and the buffer
    (of two bytes or more). *)
Definition reads_at (a : i2c_client -> kobj_attribute) (r : Z) : Prop :=
  forall client buffer, (2 <= length buffer)%nat ->
    exists handler ret buffer',
      show (a client) = Some handler /\
      handler buffer = Some (ret, buffer', [SmbusReadWord r]).

(** The attribute [a] writes register address [r]: its [store] handler puts
    exactly one write to [r] on the bus, whatever the client and the payload
    (of two bytes or more). *)
Definition writes_at (a : i2c_client -> kobj_attribute) (r : Z) : Prop :=
  forall client payload, (2 <= length payload)%nat ->
    exists handler ret word,
      store (a client) = Some handler /\
      handler payload (Z.of_nat (length payload)) = Some (ret, [SmbusWriteWord r word]).

(** The claim of C6 for one selector: the attribute bound to the selector
    reads the bare selector value and writes the selector value with the
    write-request bit set, and the two addresses differ in that bit only. *)
Definition selector_addresses (a : i2c_client -> kobj_attribute) (selector : Z) : Prop :=
  0 <= selector <= 3 /\
  reads_at a selector /\
  writes_at a (Z.lor WRITE_REQUEST selector) /\
  Z.lxor selector (Z.lor WRITE_REQUEST selector) = WRITE_REQUEST.

(** ** The attribute registry: observations *)

Definition root_path : string := "/sys/motorknob".
Definition profile_path : string := "/sys/motorknob/profile".

(** The attribute files one can see under [/sys]. *)
Definition visible_files (o : gmap string kobject) : gset string :=
  map_fold (fun path k acc =>
              set_map (fun name => path +:+ "/" +:+ name) (kobj_files k) ∪ acc) ∅ o.

Definition four_endpoints : gset string :=
  {[ "/sys/motorknob/position"; "/sys/motorknob/profile/detents";
     "/sys/motorknob/profile/start_position";
     "/sys/motorknob/profile/end_position" ]}.

(** The order in which [setup_sysfs] registers the attribute files. *)
Definition registration_order : list string :=
  ["detents"; "start_position"; "end_position"; "position"].

(** The world when the module is loaded: nothing under [/sys] is the
    driver's, both globals are [NULL]; [plan] says which allocations fail. *)
Definition boot (plan : list bool) : world :=
  {| objects := ∅; faults := plan; motorknob_kobj := NullPtr;
     motorknob_profile_kobj := NullPtr |}.

(** The position of the first failing allocation in a plan. *)
Fixpoint first_fault (plan : list bool) : option nat :=
  match plan with
  | [] => None
  | true :: _ => Some O
  | false :: plan' => S <$> first_fault plan'
  end.

(** The events of a call, and the states [/sys] went through. *)
Definition events {A : Type} (o : outcome A) : list kevent := map fst (trail o).
Definition states {A : Type} (o : outcome A) : list (gmap string kobject) :=
  map snd (trail o).

(** Projections of an event list: the files registered, the files
    unregistered, the kobjects released and the [kobject_put] calls made,
    each in order. *)
Definition registered (evs : list kevent) : list string :=
  omap (fun e => match e with EvCreateFile _ name => Some name | _ => None end) evs.
Definition unregistered (evs : list kevent) : list string :=
  omap (fun e => match e with EvRemoveFile _ name => Some name | _ => None end) evs.
Definition released (evs : list kevent) : list string :=
  omap (fun e => match e with EvRelease path => Some path | _ => None end) evs.
Definition put_calls (evs : list kevent) : list kobj_ptr :=
  omap (fun e => match e with EvPut p => Some p | _ => None end) evs.

(** What follows the first failed registration. *)
Fixpoint after_failure (evs : list kevent) : list kevent :=
  match evs with
  | [] => []
  | EvCreateFileFailed _ _ _ :: rest => rest
  | _ :: rest => after_failure rest
  end.

(** The claim of C3 about one run of [setup_sysfs]: what was registered is
    unregistered in reverse order, then the child and then the root
    container are released, and [-ENOMEM] is returned. *)
Definition rollback_in_reverse (o : outcome Z) : Prop :=
  returned o = Some (- ENOMEM) /\
  unregistered (events o) = rev (registered (events o)) /\
  released (events o) = [profile_path; root_path].

(** The claim of C8 about one call of [destory_sysfs]: it does not go wrong
    and no endpoint is visible afterwards. *)
Definition teardown_is_safe (o : outcome unit) : Prop :=
  returned o = Some () /\ visible_files (objects (after o)) = ∅.

(** The invariant of C4 on a state of [/sys]: the child container is there
    only while the root container is, and every live kobject has a live
    parent. *)
Definition containers_ordered (o : gmap string kobject) : Prop :=
  (is_Some (o !! profile_path) -> is_Some (o !! root_path)) /\
  map_Forall (fun _ k =>
                match kobj_parent k with
                | NullPtr => True
                | ObjPtr parent => is_Some (o !! parent)
                | StalePtr => False
                end) o.

#[global] Instance containers_ordered_dec (o : gmap string kobject) :
  Decision (containers_ordered o).
Proof.
  unfold containers_ordered. apply and_dec; [apply _|].
  apply map_Forall_dec. intros _ k. destruct (kobj_parent k); apply _.
Defined.

(** The same on one entry of a trail, an event with the state right after
    it: the state is ordered; if the event adds the child container, the
    root container exists; if it releases the root container, the child
    container is gone. *)
Definition step_ordered (entry : kevent * gmap string kobject) : Prop :=
  containers_ordered (snd entry) /\
  (fst entry = EvKobjectAdd profile_path -> is_Some (snd entry !! root_path)) /\
  (fst entry = EvRelease root_path ->
   snd entry !! root_path = None /\ snd entry !! profile_path = None).

#[global] Instance step_ordered_dec (entry : kevent * gmap string kobject) :
  Decision (step_ordered entry).
Proof. unfold step_ordered. apply _. Defined.

(** The calls the binding lifecycle makes, and runs of them. *)
Inductive lifecycle_call := Publish | Teardown.

Definition perform (cs : char_signedness) (client : i2c_client) (c : lifecycle_call) : kern unit :=
  match c with
  | Publish => setup_sysfs cs client;; mret ()
  | Teardown => destory_sysfs cs client
  end.

Fixpoint perform_all (cs : char_signedness) (client : i2c_client)
    (calls : list lifecycle_call) : kern unit :=
  match calls with
  | [] => mret ()
  | c :: calls' => perform cs client c;; perform_all cs client calls'
  end.

(** What [/sys] holds once [setup_sysfs] has succeeded. *)
Definition published_objects : gmap string kobject :=
  {[ root_path := {| kobj_parent := NullPtr; kref := 2;
                     kobj_files := {[ "position" ]} |};
     profile_path := {| kobj_parent := ObjPtr root_path; kref := 1;
                        kobj_files := {[ "detents"; "start_position";
                                         "end_position" ]} |} ]}.

(** The worlds between two lifecycle calls: either nothing is published and
    neither global points to a kobject, or everything is published, the
    child global points to the child container and the root global to the
    root container (or is [NULL], after a second publish was refused). *)
Definition quiescent (w : world) : Prop :=
  (objects w = ∅ /\
   motorknob_kobj w ∈ [NullPtr; StalePtr] /\
   motorknob_profile_kobj w ∈ [NullPtr; StalePtr]) \/
  (objects w = published_objects /\
   motorknob_kobj w ∈ [ObjPtr root_path; NullPtr] /\
   motorknob_profile_kobj w = ObjPtr profile_path).

#[global] Instance quiescent_dec (w : world) : Decision (quiescent w).
Proof. unfold quiescent. apply _. Defined.

(** ** The binding lifecycle *)

(** The whole of the driver's state: the global [motorknob_client] ([None]
    before the first probe) and the sysfs side. *)
Record driver := {
  motorknob_client : option i2c_client;
  sysfs : world
}.

(** The driver when the module is loaded. *)
Definition module_loaded (plan : list bool) : driver :=
  {| motorknob_client := None; sysfs := boot plan |}.

(** Gets called when a new device gets attached to this driver: accepts it
    as the MotorKnob and creates the sysfs entries.  The result is the [int]
    returned ([None] when [setup_sysfs] went wrong) and the driver
    afterwards. *)
Definition my_i2c_probe (cs : char_signedness) (client : i2c_client) (d : driver)
  : option Z * driver :=
  let o := setup_sysfs cs client (sysfs d) in
  (match returned o with
   | Some sysfs_setup_result =>
       if sysfs_setup_result <? 0 then Some sysfs_setup_result else Some 0
   | None => None
   end,
   {| motorknob_client := Some client; sysfs := after o |}).

(** Gets called when a device is removed. *)
Definition my_i2c_remove (cs : char_signedness) (client : i2c_client) (d : driver)
  : option unit * driver :=
  let o := destory_sysfs cs client (sysfs d) in
  (returned o, {| motorknob_client := motorknob_client d; sysfs := after o |}).

(** A read of an attribute file, as its [show] handler runs it: on the
    client that [motorknob_client] holds at that moment. *)
Definition show_endpoint (a : i2c_client -> kobj_attribute) (d : driver)
    (buffer : list byte) : option (Z * list byte * list bus_event) :=
  client ← motorknob_client d;
  handler ← show (a client);
  handler buffer.



(** Nothing is published and neither global points to a kobject. *)
Definition unpublished (w : world) : Prop :=
  objects w = ∅ /\
  motorknob_kobj w ∈ [NullPtr; StalePtr] /\
  motorknob_profile_kobj w ∈ [NullPtr; StalePtr].

#[global] Instance unpublished_dec (w : world) : Decision (unpublished w).
Proof. unfold unpublished. apply _. Defined.


(** The allocations a call asked for, granted or not. *)
Definition is_attempt (e : kevent) : bool :=
  match e with
  | EvKobjectAdd _ | EvKobjectAddFailed _
  | EvCreateFile _ _ | EvCreateFileFailed _ _ _ => true
  | _ => false
  end.

Definition attempts (evs : list kevent) : nat :=
  length (List.filter is_attempt evs).

(** A call that asks for no allocation and adds no kobject. *)
Definition frugal {A : Type} (m : kern A) : Prop :=
  forall w,
    faults (after (m w)) = faults w /\
    dom (objects (after (m w))) ⊆ dom (objects w).

Ltac split_plan fs k :=
  lazymatch k with
  | O => idtac
  | S ?k' =>
      let b := fresh "b" in
      let fs' := fresh "fs" in
      destruct fs as [|b fs']; [| destruct b; [| split_plan fs' k']]
  end.

Ltac split_conj := repeat match goal with |- _ /\ _ => split end.

(** Settles a decidable goal by running its decision procedure. *)
Ltac decide_by_computation :=
  apply (bool_decide_unpack _); vm_compute; exact I.

(** ** The register codec: lemmas *)

Lemma byte_to_Z_range (b : byte) : 0 <= byte_to_Z b < 256.
Proof.
  unfold byte_to_Z. pose proof (Byte.to_N_bounded b). lia.
Qed.

Lemma byte_of_Z_value (z : Z) : byte_to_Z (byte_of_Z z) = z mod 256.
Proof.
  unfold byte_of_Z, byte_to_Z, u8, to_unsigned.
  change (2 ^ 8) with 256.
  pose proof (Z.mod_pos_bound z 256 ltac:(lia)) as Hr.
  destruct (Byte.of_N (Z.to_N (z mod 256))) as [b|] eqn:Hb.
  - apply Byte.to_of_N in Hb. rewrite Hb. lia.
  - apply Byte.of_N_None_iff in Hb. lia.
Qed.

Lemma testbit_above (a k n : Z) :
  0 <= a < 2 ^ k -> 0 <= k <= n -> Z.testbit a n = false.
Proof.
  intros [Ha Hlt] Hk.
  destruct (Z.eq_dec a 0) as [->|Hne]; [apply Z.bits_0|].
  apply Z.bits_above_log2; [lia|].
  assert (Z.log2 a < k) by (apply Z.log2_lt_pow2; lia). lia.
Qed.

Lemma u16_small (a : Z) : 0 <= a < 2 ^ 16 -> u16 a = a.
Proof. intros H. unfold u16, to_unsigned. apply Z.mod_small. exact H. Qed.

Lemma lxor_u16 (a b : Z) :
  0 <= a < 2 ^ 16 -> 0 <= b < 2 ^ 16 -> u16 (Z.lxor a b) = Z.lxor a b.
Proof.
  intros Ha Hb. unfold u16, to_unsigned.
  apply Z.bits_inj'. intros n Hn.
  rewrite Z.testbit_mod_pow2 by lia.
  destruct (Z.ltb_spec n 16) as [Hlt|Hge]; [reflexivity|].
  simpl. rewrite Z.lxor_spec.
  rewrite (testbit_above a 16 n), (testbit_above b 16 n) by lia.
  reflexivity.
Qed.

Lemma word_unsigned_char (b0 b1 : byte) :
  u16 (Z.lxor (u16 (Z.shiftl (u16 (char_to_int kernel_char b0)) 8))
              (char_to_int kernel_char b1)) = payload_word b0 b1.
Proof.
  unfold payload_word. simpl.
  pose proof (byte_to_Z_range b0) as H0.
  pose proof (byte_to_Z_range b1) as H1.
  assert (Hs : 0 <= Z.shiftl (byte_to_Z b0) 8 < 2 ^ 16).
  { rewrite Z.shiftl_mul_pow2 by lia. change (2 ^ 8) with 256.
    change (2 ^ 16) with 65536. lia. }
  rewrite (u16_small (byte_to_Z b0)) by (change (2 ^ 16) with 65536; lia).
  rewrite (u16_small _ Hs).
  apply lxor_u16; [exact Hs | change (2 ^ 16) with 65536; lia].
Qed.

Lemma ssize_t_of_size_t_small (n : Z) :
  0 <= n <= SSIZE_MAX -> ssize_t_of_size_t n = n.
Proof.
  unfold ssize_t_of_size_t, to_signed, SSIZE_MAX, BITS_PER_LONG.
  intros H. change (2 ^ (64 - 1)) with 9223372036854775808 in *.
  change (2 ^ 64) with 18446744073709551616.
  rewrite Z.mod_small by lia. lia.
Qed.

(** ** The register codec: theorems *)

(** C1.  For a payload of two bytes or more (and the count of at least 2
    that goes with it), [motorknob_write] puts exactly one write on the bus,
    and its word is (byte 0 shifted left 8 bits) XOR (byte 1), for all byte
    values, also those of 0x80 and above: the kernel's [char] is unsigned. *)
Theorem motorknob_write_word (client : i2c_client) (reg : Z)
    (b0 b1 : byte) (rest : list byte) (count : Z) :
  2 <= count ->
  exists ret,
    motorknob_write kernel_char client reg (b0 :: b1 :: rest) count
    = Some (ret, [SmbusWriteWord (u8 reg)
                    (Z.lxor (Z.shiftl (byte_to_Z b0) 8) (byte_to_Z b1))]).
Proof.
  intros Hcount. unfold motorknob_write.
  destruct (Z.ltb_spec count 2) as [Hlt|_]; [lia|].
  cbn [lookup list_lookup mbind option_bind].
  rewrite word_unsigned_char. fold (payload_word b0 b1).
  destruct (_ <? 0); eauto.
Qed.

Lemma motorknob_write_word_witness :
  exists ret,
    motorknob_write kernel_char ack_client WRITE_START_POS [x01; xff; x00] 3
    = Some (ret, [SmbusWriteWord (u8 WRITE_START_POS)
                    (Z.lxor (Z.shiftl (byte_to_Z x01) 8) (byte_to_Z xff))]).
Proof. apply (motorknob_write_word ack_client WRITE_START_POS x01 xff [x00] 3). lia. Defined.

(** With a signed [char] the second byte would be sign-extended before the
    XOR and flip the high byte of the word. *)
Example motorknob_write_signed_char :
  motorknob_write SignedChar ack_client WRITE_START_POS [x01; x80] 2
  = Some (2, [SmbusWriteWord 0x80 0xfe80]) /\
  motorknob_write kernel_char ack_client WRITE_START_POS [x01; x80] 2
  = Some (2, [SmbusWriteWord 0x80 0x0180]).
Proof. split; reflexivity. Qed.

(** C7.  A payload of fewer than 2 bytes gets [-EINVAL] and no bus
    transaction; a payload of 2 bytes or more whose transfer succeeds gets
    its full length back, not 2. *)
Theorem motorknob_write_result (client : i2c_client) (reg : Z) (payload : list byte) :
  Z.of_nat (length payload) <= SSIZE_MAX ->
  (Z.of_nat (length payload) < 2 ->
     motorknob_write kernel_char client reg payload (Z.of_nat (length payload))
     = Some (- EINVAL, [])) /\
  (forall b0 b1 rest, payload = b0 :: b1 :: rest ->
     0 <= i2c_smbus_write_word_data client (u8 reg) (payload_word b0 b1) ->
     motorknob_write kernel_char client reg payload (Z.of_nat (length payload))
     = Some (Z.of_nat (length payload),
             [SmbusWriteWord (u8 reg) (payload_word b0 b1)])).
Proof.
  intros Hmax. set (count := Z.of_nat (length payload)) in *. split.
  - intros Hlt. unfold motorknob_write.
    destruct (Z.ltb_spec count 2) as [_|Hge]; [reflexivity | lia].
  - intros b0 b1 rest Hp Hok. unfold motorknob_write.
    destruct (Z.ltb_spec count 2) as [Hlt|_].
    { subst count payload. cbn [length] in Hlt. lia. }
    subst payload. cbn [lookup list_lookup mbind option_bind].
    rewrite word_unsigned_char.
    destruct (Z.ltb_spec (i2c_smbus_write_word_data client (u8 reg) (payload_word b0 b1)) 0)
      as [Hneg|_]; [lia|].
    rewrite ssize_t_of_size_t_small by (subst count; lia).
    reflexivity.
Qed.

Lemma motorknob_write_result_witness :
  motorknob_write kernel_char ack_client WRITE_DETENTS [x07] 1 = Some (- EINVAL, []) /\
  motorknob_write kernel_char ack_client WRITE_DETENTS [x01; x02; x03] 3
  = Some (3, [SmbusWriteWord (u8 WRITE_DETENTS) (payload_word x01 x02)]).
Proof.
  assert (Hsmall : forall n : Z, n <= 3 -> n <= SSIZE_MAX).
  { intros n Hn. unfold SSIZE_MAX, BITS_PER_LONG.
    change (2 ^ (64 - 1)) with 9223372036854775808. lia. }
  split.
  - apply (motorknob_write_result ack_client WRITE_DETENTS [x07]).
    + apply Hsmall. cbn [length]. lia.
    + cbn [length]. lia.
  - apply (motorknob_write_result ack_client WRITE_DETENTS [x01; x02; x03]) with (rest := [x03]).
    + apply Hsmall. cbn [length]. lia.
    + reflexivity.
    + cbn [ack_client i2c_smbus_write_word_data]. lia.
Defined.

(** C5.  A successful [motorknob_read] returns 2 and stores exactly two
    bytes: the low byte of the 16-bit bus result at position 0 and its high
    byte at position 1; the rest of the buffer is as it was. *)
Theorem motorknob_read_bytes (client : i2c_client) (reg : Z) (buffer : list byte) :
  (2 <= length buffer)%nat ->
  0 <= i2c_smbus_read_word_data client (u8 reg) ->
  let result := i2c_smbus_read_word_data client (u8 reg) in
  exists low high,
    motorknob_read client reg buffer
    = Some (2, low :: high :: drop 2 buffer, [SmbusReadWord (u8 reg)]) /\
    byte_to_Z low = result mod 2 ^ 8 /\
    byte_to_Z high = (result mod 2 ^ 16) / 2 ^ 8.
Proof.
  intros Hlen Hok result.
  destruct buffer as [|c0 [|c1 tail]]; cbn [length] in Hlen; try lia.
  exists (byte_of_Z (u8 result)), (byte_of_Z (u8 (Z.shiftr result 8))).
  split; [|split].
  - unfold motorknob_read. fold result.
    destruct (Z.ltb_spec result 0) as [Hneg|_]; [lia|].
    reflexivity.
  - rewrite byte_of_Z_value. unfold u8, to_unsigned.
    change (2 ^ 8) with 256. apply Z.mod_mod. lia.
  - rewrite byte_of_Z_value. unfold u8, to_unsigned.
    rewrite Z.shiftr_div_pow2 by lia.
    change (2 ^ 8) with 256. change (2 ^ 16) with (256 * 256).
    rewrite Z.mod_mod by lia.
    rewrite (Z.rem_mul_r result 256 256) by lia.
    rewrite (Z.mul_comm 256 ((result / 256) mod 256)).
    rewrite Z.div_add by lia.
    rewrite (Z.div_small (result mod 256) 256) by (apply Z.mod_pos_bound; lia).
    lia.
Qed.

Lemma motorknob_read_bytes_witness :
  exists low high,
    motorknob_read ack_client DATA_CURRENT_POS [x00; x00; xaa]
    = Some (2, low :: high :: drop 2 [x00; x00; xaa],
            [SmbusReadWord (u8 DATA_CURRENT_POS)]) /\
    byte_to_Z low = 0x1234 mod 2 ^ 8 /\
    byte_to_Z high = (0x1234 mod 2 ^ 16) / 2 ^ 8.
Proof.
  apply (motorknob_read_bytes ack_client DATA_CURRENT_POS [x00; x00; xaa]).
  - cbn [length]. lia.
  - vm_compute. congruence.
Defined.

(** The end-to-end scenario of the specification. *)
Example end_to_end_scenario :
  write_start_position kernel_char ack_client [x01; x02] 2
  = Some (2, [SmbusWriteWord 0x80 0x0102]) /\
  read_position ack_client [x00; x00]
  = Some (2, [x34; x12], [SmbusReadWord 0x03]).
Proof. split; reflexivity. Qed.

(** C9.  When the bus read fails, [motorknob_read] returns the negative
    status it got and leaves the caller's buffer as it was. *)
Theorem motorknob_read_failure (client : i2c_client) (reg : Z) (buffer : list byte) :
  i2c_smbus_read_word_data client (u8 reg) < 0 ->
  motorknob_read client reg buffer
  = Some (i2c_smbus_read_word_data client (u8 reg), buffer, [SmbusReadWord (u8 reg)]).
Proof.
  intros Hneg. unfold motorknob_read.
  destruct (Z.ltb_spec (i2c_smbus_read_word_data client (u8 reg)) 0) as [_|Hge];
    [reflexivity | lia].
Qed.

Lemma motorknob_read_failure_witness :
  motorknob_read nak_client DATA_DETENTS [x11; x22]
  = Some (-5, [x11; x22], [SmbusReadWord (u8 DATA_DETENTS)]).
Proof.
  apply (motorknob_read_failure nak_client DATA_DETENTS [x11; x22]).
  vm_compute. reflexivity.
Defined.

(** C10.  Two payloads of the same length, 2 or more, that agree on bytes 0
    and 1 lead to the same bus transaction and the same result: the bytes
    from position 2 on play no part. *)
Theorem motorknob_write_ignores_tail (cs : char_signedness) (client : i2c_client)
    (reg : Z) (b0 b1 : byte) (rest1 rest2 : list byte) :
  length rest1 = length rest2 ->
  is_Some (motorknob_write cs client reg (b0 :: b1 :: rest1)
             (Z.of_nat (length (b0 :: b1 :: rest1)))) /\
  motorknob_write cs client reg (b0 :: b1 :: rest1) (Z.of_nat (length (b0 :: b1 :: rest1)))
  = motorknob_write cs client reg (b0 :: b1 :: rest2) (Z.of_nat (length (b0 :: b1 :: rest2))).
Proof.
  intros Hlen. cbn [length]. rewrite <- Hlen.
  unfold motorknob_write.
  cbn [lookup list_lookup mbind option_bind].
  split; [|reflexivity].
  destruct (_ <? 2); [eauto|]. destruct (_ <? 0); eauto.
Qed.

Lemma motorknob_write_ignores_tail_witness :
  is_Some (motorknob_write kernel_char ack_client WRITE_END_POS [x12; x34; x56; x78] 4) /\
  motorknob_write kernel_char ack_client WRITE_END_POS [x12; x34; x56; x78] 4
  = motorknob_write kernel_char ack_client WRITE_END_POS [x12; x34; x9a; xbc] 4.
Proof.
  apply (motorknob_write_ignores_tail kernel_char ack_client WRITE_END_POS
           x12 x34 [x56; x78] [x9a; xbc]).
  reflexivity.
Defined.

Lemma motorknob_read_trace (client : i2c_client) (reg : Z) (buffer : list byte) :
  (2 <= length buffer)%nat ->
  exists ret buffer',
    motorknob_read client reg buffer = Some (ret, buffer', [SmbusReadWord (u8 reg)]).
Proof.
  intros Hlen. destruct buffer as [|c0 [|c1 tail]]; cbn [length] in Hlen; try lia.
  unfold motorknob_read. destruct (_ <? 0); cbn; eauto.
Qed.

Lemma motorknob_write_trace (cs : char_signedness) (client : i2c_client) (reg : Z)
    (payload : list byte) :
  (2 <= length payload)%nat ->
  exists ret word,
    motorknob_write cs client reg payload (Z.of_nat (length payload))
    = Some (ret, [SmbusWriteWord (u8 reg) word]).
Proof.
  intros Hlen. destruct payload as [|c0 [|c1 tail]]; cbn [length] in Hlen; try lia.
  unfold motorknob_write.
  destruct (Z.ltb_spec (Z.of_nat (length (c0 :: c1 :: tail))) 2) as [Hlt|_].
  { cbn [length] in Hlt. lia. }
  cbn [lookup list_lookup mbind option_bind].
  destruct (_ <? 0); eauto.
Qed.

(** C6, as the code has it.  The three writable selectors (start position,
    end position, detents) are read at the bare selector value, 0 to 2, and
    written at the selector value with the top bit set, 0x80 to 0x82, so the
    two addresses differ by exactly the write-request bit 0x80.  The fourth
    selector, current position, is read at 3 and has no write path:
    [position_attr] has no [store] handler and address 0x83 is never used. *)
Theorem register_addresses (cs : char_signedness) :
  selector_addresses (start_pos_attr cs) DATA_START_POS /\
  selector_addresses (end_pos_attr cs) DATA_END_POS /\
  selector_addresses (detent_attr cs) DATA_DETENTS /\
  [WRITE_START_POS; WRITE_END_POS; WRITE_DETENTS] = [0x80; 0x81; 0x82] /\
  reads_at position_attr DATA_CURRENT_POS /\
  (forall client, store (position_attr client) = None) /\
  (forall r, ~ writes_at position_attr r).
Proof.
  assert (Hread : forall reg, u8 reg = reg ->
            forall a : i2c_client -> kobj_attribute,
            (forall client, show (a client) = Some (motorknob_read client reg)) ->
            reads_at a reg).
  { intros reg Hreg a Ha client buffer Hlen.
    destruct (motorknob_read_trace client reg buffer Hlen) as (ret & buffer' & Hrun).
    exists (motorknob_read client reg), ret, buffer'.
    rewrite Hreg in Hrun. split; [apply Ha | exact Hrun]. }
  assert (Hwrite : forall reg, u8 reg = reg ->
            forall a : i2c_client -> kobj_attribute,
            (forall client, store (a client) = Some (motorknob_write cs client reg)) ->
            writes_at a reg).
  { intros reg Hreg a Ha client payload Hlen.
    destruct (motorknob_write_trace cs client reg payload Hlen) as (ret & word & Hrun).
    exists (motorknob_write cs client reg), ret, word.
    rewrite Hreg in Hrun. split; [apply Ha | exact Hrun]. }
  assert (Hsel : forall selector (a : i2c_client -> kobj_attribute),
            0 <= selector <= 3 ->
            (forall client, show (a client) = Some (motorknob_read client selector)) ->
            (forall client, store (a client)
                            = Some (motorknob_write cs client (Z.lor WRITE_REQUEST selector))) ->
            selector_addresses a selector).
  { intros selector a Hrange Hshow Hstore.
    assert (Hcases : selector = 0 \/ selector = 1 \/ selector = 2 \/ selector = 3) by lia.
    split; [exact Hrange|]. split; [|split].
    - apply Hread; [|exact Hshow].
      destruct Hcases as [->|[->|[->| ->]]]; reflexivity.
    - apply Hwrite; [|exact Hstore].
      destruct Hcases as [->|[->|[->| ->]]]; reflexivity.
    - destruct Hcases as [->|[->|[->| ->]]]; reflexivity. }
  split; [|split; [|split; [|split; [|split; [|split]]]]].
  - apply Hsel; [unfold DATA_START_POS; lia | reflexivity | reflexivity].
  - apply Hsel; [unfold DATA_END_POS; lia | reflexivity | reflexivity].
  - apply Hsel; [unfold DATA_DETENTS; lia | reflexivity | reflexivity].
  - reflexivity.
  - apply Hread; [reflexivity | intros client; reflexivity].
  - intros client. reflexivity.
  - intros r Hw.
    destruct (Hw ack_client [x00; x00]) as (handler & _ & _ & Hstore & _).
    + cbn [length]. lia.
    + discriminate Hstore.
Qed.

(** C6 as stated fails for the fourth selector: current position has no
    write path. *)
Lemma register_addresses_counterexample :
  ~ selector_addresses position_attr DATA_CURRENT_POS.
Proof.
  intros (_ & _ & Hw & _).
  destruct (Hw ack_client [x00; x00]) as (handler & _ & _ & Hstore & _).
  - cbn [length]. lia.
  - discriminate Hstore.
Qed.


(** ** The attribute registry: theorems *)

(** C2.  [setup_sysfs], run when nothing is published, is all or nothing.
    If one of its six allocations fails (the root container, the child
    container, one of the four attribute files) it returns [-ENOMEM] and
    leaves no attribute file visible and no container behind; otherwise it
    returns 0 and all four endpoints are visible. *)
Theorem setup_sysfs_all_or_nothing (cs : char_signedness) (client : i2c_client) (w : world) :
  objects w = ∅ ->
  let o := setup_sysfs cs client w in
  (first_fault (take 6 (faults w)) = None ->
     returned o = Some 0 /\
     visible_files (objects (after o)) = four_endpoints) /\
  (forall step, first_fault (take 6 (faults w)) = Some step ->
     returned o = Some (- ENOMEM) /\
     visible_files (objects (after o)) = ∅ /\
     objects (after o) !! root_path = None /\
     objects (after o) !! profile_path = None /\
     objects (after o) = ∅).
Proof.
  destruct w as [o fs r p]. cbn [objects faults]. intros ->.
  split_plan fs 6%nat; (split; [intros Hplan | intros step Hplan]);
    cbn in Hplan; try discriminate Hplan; clear Hplan;
    split_conj; decide_by_computation.
Qed.

Lemma setup_sysfs_all_or_nothing_witness :
  returned (setup_sysfs kernel_char ack_client (boot [false; false; false; true]))
  = Some (- ENOMEM) /\
  visible_files (objects (after (setup_sysfs kernel_char ack_client
                                   (boot [false; false; false; true])))) = ∅.
Proof.
  destruct (setup_sysfs_all_or_nothing kernel_char ack_client
              (boot [false; false; false; true]) eq_refl) as [_ Hfail].
  destruct (Hfail 3%nat eq_refl) as (Hret & Hfiles & _).
  exact (conj Hret Hfiles).
Defined.

(** C3, as the code has it.  When the registration of an attribute file
    fails, the files registered so far in this call are unregistered in the
    order in which they were registered (not in reverse), then the child
    container and after it the root container are released, and [-ENOMEM] is
    returned.  When the failure is not at the first file, the two
    [kobject_put] calls are made on the child and then on the root. *)
Theorem setup_sysfs_rollback (cs : char_signedness) (client : i2c_client)
    (w : world) (j : nat) :
  objects w = ∅ ->
  (j < 4)%nat ->
  first_fault (faults w) = Some (2 + j)%nat ->
  let o := setup_sysfs cs client w in
  returned o = Some (- ENOMEM) /\
  registered (events o) = take j registration_order /\
  exists drops,
    after_failure (events o)
    = map (EvRemoveFile profile_path) (take j registration_order) ++ drops /\
    unregistered drops = [] /\
    released drops = [profile_path; root_path] /\
    ((1 <= j)%nat -> put_calls drops = [ObjPtr profile_path; ObjPtr root_path]).
Proof.
  destruct w as [o fs r p]. cbn [objects faults]. intros -> Hj Hplan.
  cbv zeta.
  match goal with
  | |- context [setup_sysfs cs client ?w0] =>
      split; [|split; [|exists (drop j (after_failure (events (setup_sysfs cs client w0))))]]
  end.
  all: destruct j as [|[|[|[|j]]]]; try lia.
  all: split_plan fs 6%nat; cbn in Hplan; try discriminate Hplan.
  all: try (destruct (first_fault _); cbn in Hplan; discriminate Hplan).
  all: clear Hplan.
  all: split_conj; try (intros Hone; try lia; clear Hone); decide_by_computation.
Qed.

Lemma setup_sysfs_rollback_witness :
  returned (setup_sysfs kernel_char ack_client (boot [false; false; false; false; true]))
  = Some (- ENOMEM) /\
  registered (events (setup_sysfs kernel_char ack_client
                        (boot [false; false; false; false; true])))
  = ["detents"; "start_position"].
Proof.
  destruct (setup_sysfs_rollback kernel_char ack_client
              (boot [false; false; false; false; true]) 2 eq_refl
              ltac:(lia) eq_refl) as (Hret & Hreg & _).
  exact (conj Hret Hreg).
Defined.

(** C3 as stated fails when the third registration fails: the two files
    registered before it are unregistered first-registered first. *)
Lemma setup_sysfs_rollback_counterexample :
  ~ rollback_in_reverse
      (setup_sysfs kernel_char ack_client (boot [false; false; false; false; true])).
Proof.
  intros (_ & Horder & _). revert Horder. decide_by_computation.
Qed.

(** The order of the events when the third, and when the first,
    registration fails. *)
Example setup_sysfs_third_registration_fails :
  events (setup_sysfs kernel_char ack_client (boot [false; false; false; false; true]))
  = [EvKobjectAdd "/sys/motorknob"; EvKobjectAdd "/sys/motorknob/profile";
     EvCreateFile "/sys/motorknob/profile" "detents";
     EvCreateFile "/sys/motorknob/profile" "start_position";
     EvCreateFileFailed (ObjPtr "/sys/motorknob/profile") "end_position" (- ENOMEM);
     EvRemoveFile "/sys/motorknob/profile" "detents";
     EvRemoveFile "/sys/motorknob/profile" "start_position";
     EvPut (ObjPtr "/sys/motorknob/profile"); EvRelease "/sys/motorknob/profile";
     EvUnref "/sys/motorknob";
     EvPut (ObjPtr "/sys/motorknob"); EvRelease "/sys/motorknob"].
Proof. decide_by_computation. Qed.

Example setup_sysfs_first_registration_fails :
  events (setup_sysfs kernel_char ack_client (boot [false; false; true]))
  = [EvKobjectAdd "/sys/motorknob"; EvKobjectAdd "/sys/motorknob/profile";
     EvCreateFileFailed (ObjPtr "/sys/motorknob/profile") "detents" (- ENOMEM);
     EvPut (ObjPtr "/sys/motorknob"); EvUnref "/sys/motorknob";
     EvPut (ObjPtr "/sys/motorknob/profile"); EvRelease "/sys/motorknob/profile";
     EvRelease "/sys/motorknob"].
Proof. decide_by_computation. Qed.

(** C8, as the code has it.  [destory_sysfs] run once after a successful
    [setup_sysfs] does not go wrong: it unregisters the four endpoints,
    releases the child and then the root container and leaves no endpoint
    visible.  It is not idempotent.  It checks neither global, so a second
    call right after the first, a call after a failed [setup_sysfs] and a
    call when nothing was ever published all hand a [NULL] or stale
    [struct kobject *] to [sysfs_remove_file] and go wrong. *)
Theorem destory_sysfs_once (cs : char_signedness) (client : i2c_client) (w : world) :
  objects w = ∅ ->
  let published := setup_sysfs cs client w in
  let torn := destory_sysfs cs client (after published) in
  let again := destory_sysfs cs client (after torn) in
  (returned published = Some 0 ->
     returned torn = Some () /\
     unregistered (events torn) = registration_order /\
     released (events torn) = [profile_path; root_path] /\
     visible_files (objects (after torn)) = ∅ /\
     objects (after torn) = ∅ /\
     returned again = None) /\
  (returned published = Some (- ENOMEM) -> returned torn = None) /\
  returned (destory_sysfs cs client w) = None.
Proof.
  destruct w as [o fs r p]. cbn [objects faults]. intros ->. cbv zeta.
  destruct p; split_plan fs 6%nat; decide_by_computation.
Qed.

Lemma destory_sysfs_once_witness :
  returned (destory_sysfs kernel_char ack_client
              (after (setup_sysfs kernel_char ack_client (boot [])))) = Some () /\
  returned (destory_sysfs kernel_char ack_client (boot [])) = None.
Proof.
  destruct (destory_sysfs_once kernel_char ack_client (boot []) eq_refl)
    as (Hok & _ & Hnone).
  split; [|exact Hnone].
  apply Hok. decide_by_computation.
Defined.

(** C8 as stated fails on the very first case it names: with nothing
    published both globals are [NULL], and the first [sysfs_remove_file]
    dereferences one. *)
Lemma destory_sysfs_counterexample :
  ~ teardown_is_safe (destory_sysfs kernel_char ack_client (boot [])).
Proof. unfold teardown_is_safe. decide_by_computation. Qed.

(** ** The attribute registry: the invariant *)

Lemma trail_bind {A B : Type} (m : kern A) (f : A -> kern B) (w : world) :
  trail ((m ≫= f) w)
  = match returned (m w) with
    | Some a => trail (m w) ++ trail (f a (after (m w)))
    | None => trail (m w)
    end.
Proof. unfold mbind, kern_bind. destruct (returned (m w)); reflexivity. Qed.

(** One lifecycle call, started between two calls, goes through ordered
    steps only and, when it returns, ends between two calls again. *)
Lemma perform_quiescent (cs : char_signedness) (client : i2c_client)
    (c : lifecycle_call) (w : world) :
  quiescent w ->
  Forall step_ordered (trail (perform cs client c w)) /\
  (is_Some (returned (perform cs client c w)) ->
   quiescent (after (perform cs client c w))).
Proof.
  destruct w as [o fs r p]. unfold quiescent at 1.
  cbn [objects motorknob_kobj motorknob_profile_kobj].
  rewrite !elem_of_cons, !elem_of_nil.
  intros [(-> & Hr & Hp) | (-> & Hr & ->)].
  - destruct Hr as [-> | [-> | []]]; destruct Hp as [-> | [-> | []]];
      destruct c; [split_plan fs 6%nat | | split_plan fs 6%nat | |
                   split_plan fs 6%nat | | split_plan fs 6%nat | ];
      decide_by_computation.
  - destruct Hr as [-> | [-> | []]];
      destruct c; [split_plan fs 1%nat | | split_plan fs 1%nat | ];
      decide_by_computation.
Qed.

Lemma perform_all_ordered (cs : char_signedness) (client : i2c_client)
    (calls : list lifecycle_call) :
  forall w, quiescent w ->
    Forall step_ordered (trail (perform_all cs client calls w)).
Proof.
  induction calls as [|c calls IH]; intros w Hw.
  - apply Forall_nil_2.
  - cbn [perform_all]. rewrite trail_bind.
    destruct (perform_quiescent cs client c w Hw) as [Hsteps Hnext].
    destruct (returned (perform cs client c w)) as [[]|] eqn:Hret.
    + apply Forall_app. split; [exact Hsteps|].
      apply IH. apply Hnext. eauto.
    + exact Hsteps.
Qed.

(** C4.  Whatever calls of [setup_sysfs] and [destory_sysfs] are made after
    the module is loaded, and whichever allocations fail, every step of the
    run (up to a call that goes wrong, if there is one) leaves [/sys] with
    the child container only while the root container exists: when the child
    container is added the root container is there, and when the root
    container is released the child container is already gone. *)
Theorem containers_always_ordered (cs : char_signedness) (client : i2c_client)
    (calls : list lifecycle_call) (plan : list bool) :
  Forall step_ordered (trail (perform_all cs client calls (boot plan))) /\
  Forall containers_ordered (states (perform_all cs client calls (boot plan))).
Proof.
  assert (Hsteps : Forall step_ordered
                     (trail (perform_all cs client calls (boot plan)))).
  { apply perform_all_ordered. left. cbn. rewrite !elem_of_cons. tauto. }
  split; [exact Hsteps|].
  unfold states. apply Forall_fmap.
  eapply Forall_impl; [exact Hsteps|].
  intros entry Hentry. apply Hentry.
Qed.

(** A run that publishes, tears down and publishes again goes through
    twenty-one steps, so the invariant is not an empty one. *)
Example containers_always_ordered_run :
  length (trail (perform_all kernel_char ack_client [Publish; Teardown; Publish]
                   (boot []))) = 21%nat /\
  returned (perform_all kernel_char ack_client [Publish; Teardown; Publish] (boot []))
  = Some ().
Proof. split; decide_by_computation. Qed.

(** ** More on the register codec *)

Lemma byte_of_to_Z (b : byte) : byte_of_Z (byte_to_Z b) = b.
Proof.
  unfold byte_of_Z. unfold u8, to_unsigned.
  pose proof (byte_to_Z_range b) as Hb. change (2 ^ 8) with 256.
  rewrite Z.mod_small by lia.
  unfold byte_to_Z. rewrite N2Z.id, Byte.of_to_N. reflexivity.
Qed.

Lemma byte_to_Z_inj (b c : byte) : byte_to_Z b = byte_to_Z c -> b = c.
Proof.
  intros H. rewrite <- (byte_of_to_Z b), <- (byte_of_to_Z c), H. reflexivity.
Qed.

Lemma payload_word_sum (b0 b1 : byte) :
  payload_word b0 b1 = 256 * byte_to_Z b0 + byte_to_Z b1.
Proof.
  unfold payload_word.
  pose proof (byte_to_Z_range b0) as H0.
  pose proof (byte_to_Z_range b1) as H1.
  rewrite <- Z.add_nocarry_lxor.
  - rewrite Z.shiftl_mul_pow2 by lia. change (2 ^ 8) with 256. lia.
  - apply Z.bits_inj'. intros n Hn.
    rewrite Z.land_spec, Z.bits_0.
    destruct (Z.ltb_spec n 8) as [Hlow|Hhigh].
    + rewrite Z.shiftl_spec_low by lia. reflexivity.
    + rewrite (testbit_above (byte_to_Z b1) 8 n) by (change (2 ^ 8) with 256; lia).
      apply andb_false_r.
Qed.

Lemma payload_word_low (b0 b1 : byte) : payload_word b0 b1 mod 256 = byte_to_Z b1.
Proof.
  rewrite payload_word_sum. pose proof (byte_to_Z_range b1).
  rewrite Z.add_comm, Z.mul_comm, Z.mod_add by lia. apply Z.mod_small. lia.
Qed.

Lemma payload_word_high (b0 b1 : byte) : payload_word b0 b1 / 256 = byte_to_Z b0.
Proof.
  rewrite payload_word_sum. pose proof (byte_to_Z_range b1).
  rewrite Z.add_comm, Z.mul_comm, Z.div_add by lia.
  rewrite Z.div_small by lia. lia.
Qed.

(** X1.  When the bus write fails, [motorknob_write] hands back the
    negative status it got, after that one transaction and no other: there
    is no retry and the status is not translated. *)
Theorem motorknob_write_failure (client : i2c_client) (reg : Z)
    (b0 b1 : byte) (rest : list byte) (count : Z) :
  2 <= count ->
  i2c_smbus_write_word_data client (u8 reg) (payload_word b0 b1) < 0 ->
  motorknob_write kernel_char client reg (b0 :: b1 :: rest) count
  = Some (i2c_smbus_write_word_data client (u8 reg) (payload_word b0 b1),
          [SmbusWriteWord (u8 reg) (payload_word b0 b1)]).
Proof.
  intros Hcount Hneg. unfold motorknob_write.
  destruct (Z.ltb_spec count 2) as [Hlt|_]; [lia|].
  cbn [lookup list_lookup mbind option_bind].
  rewrite word_unsigned_char.
  destruct (Z.ltb_spec (i2c_smbus_write_word_data client (u8 reg) (payload_word b0 b1)) 0)
    as [_|Hge]; [reflexivity | lia].
Qed.

Lemma motorknob_write_failure_witness :
  motorknob_write kernel_char nak_client WRITE_DETENTS [x00; x18] 2
  = Some (-5, [SmbusWriteWord (u8 WRITE_DETENTS) (payload_word x00 x18)]).
Proof.
  apply (motorknob_write_failure nak_client WRITE_DETENTS x00 x18 [] 2).
  - lia.
  - cbn [nak_client i2c_smbus_write_word_data]. lia.
Defined.

(** X2.  With the kernel's unsigned [char] the XOR in [motorknob_write]
    loses nothing: the word sent is 256 * byte 0 + byte 1, the big-endian
    reading of the two bytes, and it fits in 16 bits. *)
Theorem motorknob_write_word_is_big_endian (client : i2c_client) (reg : Z)
    (b0 b1 : byte) (rest : list byte) (count : Z) :
  2 <= count ->
  0 <= 256 * byte_to_Z b0 + byte_to_Z b1 <= 0xffff /\
  exists ret,
    motorknob_write kernel_char client reg (b0 :: b1 :: rest) count
    = Some (ret, [SmbusWriteWord (u8 reg) (256 * byte_to_Z b0 + byte_to_Z b1)]).
Proof.
  intros Hcount.
  pose proof (byte_to_Z_range b0). pose proof (byte_to_Z_range b1).
  split; [lia|].
  unfold motorknob_write.
  destruct (Z.ltb_spec count 2) as [Hlt|_]; [lia|].
  cbn [lookup list_lookup mbind option_bind].
  rewrite word_unsigned_char, payload_word_sum.
  destruct (_ <? 0); eauto.
Qed.

Lemma motorknob_write_word_is_big_endian_witness :
  exists ret,
    motorknob_write kernel_char ack_client WRITE_END_POS [xff; x80] 2
    = Some (ret, [SmbusWriteWord (u8 WRITE_END_POS)
                    (256 * byte_to_Z xff + byte_to_Z x80)]).
Proof.
  apply (motorknob_write_word_is_big_endian ack_client WRITE_END_POS xff x80 [] 2).
  lia.
Defined.

(** X3.  Two payloads that put the same transaction on the bus agree on
    their first two bytes: no two byte pairs are sent as the same word. *)
Theorem motorknob_write_word_injective (client : i2c_client) (reg : Z)
    (b0 b1 c0 c1 : byte) (rest1 rest2 : list byte) (count1 count2 : Z) :
  2 <= count1 -> 2 <= count2 ->
  snd <$> motorknob_write kernel_char client reg (b0 :: b1 :: rest1) count1
  = snd <$> motorknob_write kernel_char client reg (c0 :: c1 :: rest2) count2 ->
  b0 = c0 /\ b1 = c1.
Proof.
  intros H1 H2. unfold motorknob_write.
  destruct (Z.ltb_spec count1 2) as [Hlt|_]; [lia|].
  destruct (Z.ltb_spec count2 2) as [Hlt|_]; [lia|].
  cbn [lookup list_lookup mbind option_bind].
  rewrite !word_unsigned_char.
  intros Heq.
  assert (Hw : payload_word b0 b1 = payload_word c0 c1).
  { destruct (_ <? 0), (_ <? 0); cbn in Heq; congruence. }
  split; apply byte_to_Z_inj.
  - rewrite <- (payload_word_high b0 b1), <- (payload_word_high c0 c1), Hw.
    reflexivity.
  - rewrite <- (payload_word_low b0 b1), <- (payload_word_low c0 c1), Hw.
    reflexivity.
Qed.

Lemma motorknob_write_word_injective_witness : x12 = x12 /\ x34 = x34.
Proof.
  apply (motorknob_write_word_injective ack_client WRITE_START_POS
           x12 x34 x12 x34 [x00] [] 3 2); [lia | lia | reflexivity].
Defined.

(** X4.  Reading back what was written swaps the two bytes.  When the
    device answers a read with the word that [motorknob_write] sent for the
    payload bytes [b0], [b1], [motorknob_read] stores [b1] at position 0 and
    [b0] at position 1. *)
Theorem motorknob_read_after_write (client : i2c_client) (reg : Z)
    (b0 b1 : byte) (buffer : list byte) :
  (2 <= length buffer)%nat ->
  i2c_smbus_read_word_data client (u8 reg) = payload_word b0 b1 ->
  motorknob_read client reg buffer
  = Some (2, b1 :: b0 :: drop 2 buffer, [SmbusReadWord (u8 reg)]).
Proof.
  intros Hlen Hword.
  destruct buffer as [|c0 [|c1 tail]]; cbn [length] in Hlen; try lia.
  unfold motorknob_read. rewrite Hword.
  pose proof (byte_to_Z_range b0). pose proof (byte_to_Z_range b1).
  destruct (Z.ltb_spec (payload_word b0 b1) 0) as [Hneg|_].
  { rewrite payload_word_sum in Hneg. lia. }
  assert (Hlow : byte_of_Z (u8 (payload_word b0 b1)) = b1).
  { unfold u8, to_unsigned. change (2 ^ 8) with 256.
    rewrite payload_word_low. apply byte_of_to_Z. }
  assert (Hhigh : byte_of_Z (u8 (Z.shiftr (payload_word b0 b1) 8)) = b0).
  { rewrite Z.shiftr_div_pow2 by lia. change (2 ^ 8) with 256.
    rewrite payload_word_high. unfold u8, to_unsigned. change (2 ^ 8) with 256.
    rewrite Z.mod_small by lia. apply byte_of_to_Z. }
  unfold store_char. cbn [length].
  destruct (decide (0 < S (S (length tail)))%nat) as [_|Hn]; [|lia].
  cbn [mbind option_bind]. rewrite length_insert. cbn [length].
  destruct (decide (1 < S (S (length tail)))%nat) as [_|Hn]; [|lia].
  cbn [mbind option_bind]. rewrite Hlow, Hhigh. reflexivity.
Qed.

Lemma motorknob_read_after_write_witness :
  motorknob_read ack_client DATA_START_POS [x00; x00; x00]
  = Some (2, x34 :: x12 :: drop 2 [x00; x00; x00], [SmbusReadWord (u8 DATA_START_POS)]).
Proof.
  apply (motorknob_read_after_write ack_client DATA_START_POS x12 x34 [x00; x00; x00]).
  - cbn [length]. lia.
  - reflexivity.
Defined.

(** X5.  Writing back what was read does not restore the register.  After a
    successful read of the 16-bit word [word], a write of the buffer just
    filled sends [word] with its two bytes swapped. *)
Theorem motorknob_write_after_read (client : i2c_client) (reg reg' : Z)
    (buffer : list byte) (word : Z) :
  (2 <= length buffer)%nat ->
  i2c_smbus_read_word_data client (u8 reg) = word ->
  0 <= word <= 0xffff ->
  exists buffer' ret,
    motorknob_read client reg buffer = Some (2, buffer', [SmbusReadWord (u8 reg)]) /\
    motorknob_write kernel_char client reg' buffer' (Z.of_nat (length buffer'))
    = Some (ret, [SmbusWriteWord (u8 reg') (256 * (word mod 256) + word / 256)]).
Proof.
  intros Hlen Hword Hrange.
  destruct buffer as [|c0 [|c1 tail]]; cbn [length] in Hlen; try lia.
  exists (byte_of_Z (u8 word) :: byte_of_Z (u8 (Z.shiftr word 8)) :: tail).
  assert (Hread : motorknob_read client reg (c0 :: c1 :: tail)
                  = Some (2, byte_of_Z (u8 word) :: byte_of_Z (u8 (Z.shiftr word 8)) :: tail,
                          [SmbusReadWord (u8 reg)])).
  { unfold motorknob_read. rewrite Hword.
    destruct (Z.ltb_spec word 0) as [Hneg|_]; [lia|]. reflexivity. }
  assert (Hwrite : exists ret,
            motorknob_write kernel_char client reg'
              (byte_of_Z (u8 word) :: byte_of_Z (u8 (Z.shiftr word 8)) :: tail)
              (Z.of_nat (length (byte_of_Z (u8 word)
                                   :: byte_of_Z (u8 (Z.shiftr word 8)) :: tail)))
            = Some (ret, [SmbusWriteWord (u8 reg') (256 * (word mod 256) + word / 256)])).
  { unfold motorknob_write.
    destruct (Z.ltb_spec (Z.of_nat (length (byte_of_Z (u8 word)
                :: byte_of_Z (u8 (Z.shiftr word 8)) :: tail))) 2) as [Hlt|_].
    { cbn [length] in Hlt. lia. }
    cbn [lookup list_lookup mbind option_bind].
    assert (Hlow : byte_to_Z (byte_of_Z (u8 word)) = word mod 256).
    { rewrite byte_of_Z_value. unfold u8, to_unsigned. change (2 ^ 8) with 256.
      apply Z.mod_mod. lia. }
    assert (Hhigh : byte_to_Z (byte_of_Z (u8 (Z.shiftr word 8))) = word / 256).
    { rewrite byte_of_Z_value. unfold u8, to_unsigned.
      rewrite Z.shiftr_div_pow2 by lia. change (2 ^ 8) with 256.
      rewrite Z.mod_mod by lia. apply Z.mod_small.
      split; [apply Z.div_pos; lia | apply Z.div_lt_upper_bound; lia]. }
    rewrite word_unsigned_char, payload_word_sum, Hlow, Hhigh.
    destruct (_ <? 0); eauto. }
  destruct Hwrite as [ret Hwrite].
  exists ret. split; [exact Hread | exact Hwrite].
Qed.

Lemma motorknob_write_after_read_witness :
  exists buffer' ret,
    motorknob_read ack_client DATA_DETENTS [x00; x00]
    = Some (2, buffer', [SmbusReadWord (u8 DATA_DETENTS)]) /\
    motorknob_write kernel_char ack_client WRITE_DETENTS buffer' (Z.of_nat (length buffer'))
    = Some (ret, [SmbusWriteWord (u8 WRITE_DETENTS) (256 * (0x1234 mod 256) + 0x1234 / 256)]).
Proof.
  apply (motorknob_write_after_read ack_client DATA_DETENTS WRITE_DETENTS [x00; x00] 0x1234).
  - cbn [length]. lia.
  - reflexivity.
  - lia.
Defined.

(** X6.  What [motorknob_write] can return.  Below 2 bytes it is [-EINVAL]
    with no bus traffic; from 2 bytes on there is exactly one transaction
    and the result is negative or the whole [count]: a short write is never
    reported. *)
Theorem motorknob_write_returns (cs : char_signedness) (client : i2c_client)
    (reg : Z) (buffer : list byte) (count ret : Z) (sent : list bus_event) :
  0 <= count <= SSIZE_MAX ->
  motorknob_write cs client reg buffer count = Some (ret, sent) ->
  (count < 2 /\ ret = - EINVAL /\ sent = []) \/
  (2 <= count /\ length sent = 1%nat /\ (ret < 0 \/ ret = count)).
Proof.
  intros Hcount. unfold motorknob_write.
  destruct (Z.ltb_spec count 2) as [Hlt|Hge].
  - intros [= <- <-]. left. auto.
  - destruct (buffer !! 0%nat) as [b0|]; [|discriminate].
    destruct (buffer !! 1%nat) as [b1|]; [|discriminate].
    cbn [mbind option_bind].
    match goal with
    | |- context [i2c_smbus_write_word_data client ?r ?w] =>
        destruct (Z.ltb_spec (i2c_smbus_write_word_data client r w) 0) as [Hneg|Hok]
    end.
    + intros [= <- <-]. right. auto.
    + intros [= <- <-]. right. rewrite ssize_t_of_size_t_small by lia. auto.
Qed.

Lemma motorknob_write_returns_witness :
  (3 < 2 /\ 3 = - EINVAL /\ [SmbusWriteWord (u8 WRITE_DETENTS) (payload_word x01 x02)] = []) \/
  (2 <= 3 /\
   length [SmbusWriteWord (u8 WRITE_DETENTS) (payload_word x01 x02)] = 1%nat /\
   (3 < 0 \/ 3 = 3)).
Proof.
  apply (motorknob_write_returns kernel_char ack_client WRITE_DETENTS [x01; x02; x03] 3).
  - unfold SSIZE_MAX, BITS_PER_LONG. change (2 ^ (64 - 1)) with 9223372036854775808. lia.
  - reflexivity.
Defined.

(** X7.  Neither codec function checks the buffer it is given.  A
    successful bus read into a buffer of fewer than 2 bytes stores outside
    the buffer, and a write told of 2 bytes or more reads outside a buffer
    that is shorter. *)
Theorem codec_trusts_the_caller (cs : char_signedness) (client : i2c_client)
    (reg : Z) (buffer : list byte) (count : Z) :
  (length buffer < 2)%nat ->
  (0 <= i2c_smbus_read_word_data client (u8 reg) ->
   motorknob_read client reg buffer = None) /\
  (2 <= count -> motorknob_write cs client reg buffer count = None).
Proof.
  intros Hlen. split.
  - intros Hok. unfold motorknob_read.
    destruct (Z.ltb_spec (i2c_smbus_read_word_data client (u8 reg)) 0) as [Hneg|_]; [lia|].
    destruct buffer as [|c0 [|c1 tail]]; cbn [length] in Hlen; try lia; reflexivity.
  - intros Hcount. unfold motorknob_write.
    destruct (Z.ltb_spec count 2) as [Hlt|_]; [lia|].
    destruct buffer as [|c0 [|c1 tail]]; cbn [length] in Hlen; try lia; reflexivity.
Qed.

Lemma codec_trusts_the_caller_witness :
  motorknob_read ack_client DATA_DETENTS [x00] = None /\
  motorknob_write kernel_char ack_client WRITE_DETENTS [x00] 2 = None.
Proof.
  destruct (codec_trusts_the_caller kernel_char ack_client DATA_DETENTS [x00] 2
              ltac:(cbn [length]; lia)) as [Hread _].
  destruct (codec_trusts_the_caller kernel_char ack_client WRITE_DETENTS [x00] 2
              ltac:(cbn [length]; lia)) as [_ Hwrite].
  split.
  - apply Hread. cbn [ack_client i2c_smbus_read_word_data]. lia.
  - apply Hwrite. lia.
Defined.

(** ** More on the attribute registry *)

(** X8.  [setup_sysfs] stops at the first allocation that fails: it has
    then asked for exactly that many allocations and leaves the rest of the
    plan untouched; when none fails it asks for six. *)
Theorem setup_sysfs_stops_at_first_failure (cs : char_signedness)
    (client : i2c_client) (w : world) :
  objects w = ∅ ->
  let o := setup_sysfs cs client w in
  (first_fault (take 6 (faults w)) = None ->
     attempts (events o) = 6%nat /\ faults (after o) = drop 6 (faults w)) /\
  (forall step, first_fault (take 6 (faults w)) = Some step ->
     attempts (events o) = S step /\ faults (after o) = drop (S step) (faults w)).
Proof.
  destruct w as [o fs r p]. cbn [objects faults]. intros ->. cbv zeta.
  split_plan fs 6%nat; (split; [intros Hplan | intros step Hplan]);
    cbn in Hplan; try discriminate Hplan;
    try (injection Hplan as <-); try clear Hplan;
    (split; [decide_by_computation | vm_compute; reflexivity]).
Qed.

Lemma setup_sysfs_stops_at_first_failure_witness :
  attempts (events (setup_sysfs kernel_char ack_client (boot [false; true; true])))
  = 2%nat /\
  faults (after (setup_sysfs kernel_char ack_client (boot [false; true; true])))
  = [true].
Proof.
  destruct (setup_sysfs_stops_at_first_failure kernel_char ack_client
              (boot [false; true; true]) eq_refl) as [_ Hfail].
  exact (Hfail 1%nat eq_refl).
Defined.

(** X9.  The two globals after [setup_sysfs].  On success they point to the
    two containers, the root holding two references (its own and the
    child's) and the [position] file, the child one reference and the three
    profile files.  On failure they are not reset: [motorknob_kobj] is
    [NULL] only when the root container itself could not be created, and is
    left pointing to a freed kobject otherwise; [motorknob_profile_kobj] is
    untouched, [NULL] or left pointing to a freed kobject, as the failure is
    at the root, at the child or at a file. *)
Theorem setup_sysfs_globals (cs : char_signedness) (client : i2c_client) (w : world) :
  objects w = ∅ ->
  let o := setup_sysfs cs client w in
  match first_fault (take 6 (faults w)) with
  | None =>
      motorknob_kobj (after o) = ObjPtr root_path /\
      motorknob_profile_kobj (after o) = ObjPtr profile_path /\
      objects (after o) = published_objects
  | Some O =>
      motorknob_kobj (after o) = NullPtr /\
      motorknob_profile_kobj (after o) = motorknob_profile_kobj w
  | Some (S O) =>
      motorknob_kobj (after o) = StalePtr /\
      motorknob_profile_kobj (after o) = NullPtr
  | Some _ =>
      motorknob_kobj (after o) = StalePtr /\
      motorknob_profile_kobj (after o) = StalePtr
  end.
Proof.
  destruct w as [o fs r p]. cbn [objects faults motorknob_profile_kobj].
  intros ->. cbv zeta.
  split_plan fs 6%nat; cbn [first_fault take fmap option_fmap option_map];
    split_conj; first [decide_by_computation | vm_compute; reflexivity].
Qed.

Lemma setup_sysfs_globals_witness :
  motorknob_kobj (after (setup_sysfs kernel_char ack_client
                           (boot [false; false; false; true]))) = StalePtr /\
  motorknob_profile_kobj (after (setup_sysfs kernel_char ack_client
                                   (boot [false; false; false; true]))) = StalePtr.
Proof.
  exact (setup_sysfs_globals kernel_char ack_client
           (boot [false; false; false; true]) eq_refl).
Defined.

(** X10.  [setup_sysfs] run a second time while everything is published is
    refused at its first step: the name [motorknob] is taken.  It returns
    [-ENOMEM] and leaves the published tree as it is, but it has already
    overwritten [motorknob_kobj] with [NULL].  A [destory_sysfs] after that
    unregisters the three profile files and then goes wrong at
    [position]: that file and both containers stay. *)
Theorem setup_sysfs_twice (cs : char_signedness) (client : i2c_client) (w : world) :
  objects w = published_objects ->
  motorknob_profile_kobj w = ObjPtr profile_path ->
  let o := setup_sysfs cs client w in
  let torn := destory_sysfs cs client (after o) in
  returned o = Some (- ENOMEM) /\
  attempts (events o) = 1%nat /\
  objects (after o) = published_objects /\
  motorknob_kobj (after o) = NullPtr /\
  returned torn = None /\
  unregistered (events torn) = take 3 registration_order /\
  visible_files (objects (after torn)) = {[ "/sys/motorknob/position" ]} /\
  is_Some (objects (after torn) !! root_path) /\
  is_Some (objects (after torn) !! profile_path).
Proof.
  destruct w as [o fs r p]. cbn [objects motorknob_profile_kobj].
  intros -> ->. cbv zeta.
  destruct fs as [|[|] fs]; split_conj; decide_by_computation.
Qed.

Lemma setup_sysfs_twice_witness :
  returned (setup_sysfs kernel_char ack_client
              (after (setup_sysfs kernel_char ack_client (boot []))))
  = Some (- ENOMEM) /\
  motorknob_kobj (after (setup_sysfs kernel_char ack_client
                           (after (setup_sysfs kernel_char ack_client (boot [])))))
  = NullPtr.
Proof.
  destruct (setup_sysfs_twice kernel_char ack_client
              (after (setup_sysfs kernel_char ack_client (boot []))))
    as (Hret & _ & _ & Hnull & _).
  - decide_by_computation.
  - decide_by_computation.
  - exact (conj Hret Hnull).
Defined.

(** ** Teardown asks for nothing *)

Lemma frugal_ret {A : Type} (a : A) : frugal (mret a).
Proof. intros w. split; reflexivity. Qed.

Lemma frugal_oops {A : Type} : frugal (@oops A).
Proof. intros w. split; reflexivity. Qed.

Lemma frugal_emit (e : kevent) : frugal (emit e).
Proof. intros w. split; reflexivity. Qed.

Lemma frugal_bind {A B : Type} (m : kern A) (f : A -> kern B) :
  frugal m -> (forall a, frugal (f a)) -> frugal (m ≫= f).
Proof.
  intros Hm Hf w. destruct (Hm w) as [Hfaults Hdom].
  unfold mbind, kern_bind. destruct (returned (m w)) as [a|]; cbn [after].
  - destruct (Hf a (after (m w))) as [Hfaults' Hdom'].
    split; [congruence | etrans; eassumption].
  - split; assumption.
Qed.

Lemma frugal_reading {A : Type} (global : world -> kobj_ptr) (call : kobj_ptr -> kern A) :
  (forall p, frugal (call p)) -> frugal (reading global call).
Proof. intros Hcall w. apply Hcall. Qed.

Lemma frugal_release (path : string) : frugal (release path).
Proof.
  intros w. unfold release, update, emit, mbind, kern_bind. cbn.
  split; [reflexivity|]. apply subseteq_dom, delete_subseteq.
Qed.

(** Replacing a live kobject by another adds none. *)
Lemma frugal_replace (p : kobj_ptr) (f : kobject -> kobject) (e : string -> kevent) :
  frugal (k ← deref p;
          update (set_objects (<[fst k := f (snd k)]>));; emit (e (fst k))).
Proof.
  intros w. unfold deref, gets, update, emit, oops, mbind, mret, kern_bind, kern_ret.
  destruct p as [|path|]; cbn; try (split; reflexivity).
  destruct (objects w !! path) as [k|] eqn:Hlive; cbn; [|split; reflexivity].
  split; [reflexivity|].
  rewrite dom_insert_lookup_L by eauto. reflexivity.
Qed.

Lemma frugal_sysfs_remove_file (kobj : kobj_ptr) (a : attribute) :
  frugal (sysfs_remove_file kobj a).
Proof.
  exact (frugal_replace kobj
           (fun k => {| kobj_parent := kobj_parent k; kref := kref k;
                        kobj_files := kobj_files k ∖ {[attr_name a]} |})
           (fun path => EvRemoveFile path (attr_name a))).
Qed.

Lemma frugal_kobject_unref (fuel : nat) : forall p, frugal (kobject_unref fuel p).
Proof.
  induction fuel as [|fuel IH]; intros p; [apply frugal_oops|].
  cbn [kobject_unref].
  destruct p as [|path|]; [apply frugal_ret | |].
  - intros w.
    unfold deref, gets, oops, mbind, mret, kern_bind, kern_ret. cbn.
    destruct (objects w !! path) as [k|] eqn:Hlive; cbn; [|split; reflexivity].
    destruct (kref k) as [|[|n]].
    + apply (frugal_bind (release path) (fun _ => kobject_unref fuel (kobj_parent k)));
        [apply frugal_release | intros _; apply IH].
    + apply (frugal_bind (release path) (fun _ => kobject_unref fuel (kobj_parent k)));
        [apply frugal_release | intros _; apply IH].
    + unfold update, emit. cbn. split; [reflexivity|].
      rewrite dom_insert_lookup_L by eauto. reflexivity.
  - intros w. split; reflexivity.
Qed.

Lemma frugal_kobject_put (p : kobj_ptr) : frugal (kobject_put p).
Proof.
  unfold kobject_put.
  apply frugal_bind; [apply frugal_emit | intros _].
  apply frugal_bind; [intros w; split; reflexivity | intros live].
  apply frugal_kobject_unref.
Qed.

(** X11.  [destory_sysfs] asks for no allocation and adds no kobject, in
    whatever state it is called and whether or not it goes wrong: no plan of
    allocation failures can make it fail, and it only ever takes away. *)
Theorem destory_sysfs_frugal (cs : char_signedness) (client : i2c_client) (w : world) :
  faults (after (destory_sysfs cs client w)) = faults w /\
  dom (objects (after (destory_sysfs cs client w))) ⊆ dom (objects w).
Proof.
  revert w. change (frugal (destory_sysfs cs client)).
  unfold destory_sysfs.
  repeat (apply frugal_bind; [|intros _]);
    apply frugal_reading; intros p;
    first [apply frugal_sysfs_remove_file | apply frugal_kobject_put].
Qed.

(** ** The binding lifecycle: theorems *)




(** X13.  [my_i2c_probe] on a driver with nothing published returns 0 when
    all six allocations succeed and [-ENOMEM] otherwise, and takes the
    device as the MotorKnob before it knows which: after a failed probe
    [motorknob_client] is the device that could not be set up. *)
Theorem my_i2c_probe_result (cs : char_signedness) (client : i2c_client) (d : driver) :
  objects (sysfs d) = ∅ ->
  fst (my_i2c_probe cs client d)
  = Some (match first_fault (take 6 (faults (sysfs d))) with
          | Some _ => - ENOMEM
          | None => 0
          end) /\
  motorknob_client (snd (my_i2c_probe cs client d)) = Some client /\
  (is_Some (first_fault (take 6 (faults (sysfs d)))) ->
   visible_files (objects (sysfs (snd (my_i2c_probe cs client d)))) = ∅).
Proof.
  destruct d as [bound [o fs r p]]. cbn [sysfs objects faults]. intros ->.
  split; [|split; [reflexivity|]].
  - unfold my_i2c_probe. cbn [fst sysfs].
    split_plan fs 6%nat; cbn [first_fault take fmap option_fmap option_map];
      match goal with
      | |- context [returned ?o] =>
          first [ replace (returned o) with (Some (- ENOMEM)) by
                    (symmetry; decide_by_computation)
                | replace (returned o) with (Some 0) by
                    (symmetry; decide_by_computation) ]
      end; reflexivity.
  - unfold my_i2c_probe. cbn [snd sysfs].
    split_plan fs 6%nat; cbn [first_fault take fmap option_fmap option_map];
      intros Hsome; try (destruct Hsome as [? [=]]); decide_by_computation.
Qed.

Lemma my_i2c_probe_result_witness :
  fst (my_i2c_probe kernel_char nak_client (module_loaded [false; true]))
  = Some (- ENOMEM) /\
  motorknob_client (snd (my_i2c_probe kernel_char nak_client (module_loaded [false; true])))
  = Some nak_client.
Proof.
  destruct (my_i2c_probe_result kernel_char nak_client (module_loaded [false; true])
              eq_refl) as (Hret & Hclient & _).
  exact (conj Hret Hclient).
Defined.

Lemma my_i2c_probe_fst (cs : char_signedness) (client : i2c_client) (d : driver) :
  fst (my_i2c_probe cs client d)
  = (fun r => if r <? 0 then r else 0) <$> returned (setup_sysfs cs client (sysfs d)).
Proof.
  unfold my_i2c_probe. cbn [fst].
  destruct (returned (setup_sysfs cs client (sysfs d))) as [r|]; cbn; [|reflexivity].
  destruct (r <? 0); reflexivity.
Qed.

Lemma my_i2c_probe_sysfs (cs : char_signedness) (client : i2c_client) (d : driver) :
  sysfs (snd (my_i2c_probe cs client d)) = after (setup_sysfs cs client (sysfs d)).
Proof. reflexivity. Qed.

Lemma my_i2c_remove_fst (cs : char_signedness) (client : i2c_client) (d : driver) :
  fst (my_i2c_remove cs client d) = returned (destory_sysfs cs client (sysfs d)).
Proof. reflexivity. Qed.

(** X14.  A second device probed while the first is bound takes the
    endpoints over.  Its probe is refused with [-ENOMEM] and the four
    endpoints of the first device stay visible, but [motorknob_client] is
    now the second device, so a read of [position] goes to the second
    device's bus; and since [motorknob_kobj] was overwritten too, removing
    the first device goes wrong. *)
Theorem second_probe_takes_over (cs : char_signedness) (first second : i2c_client)
    (d : driver) (buffer : list byte) :
  objects (sysfs d) = ∅ ->
  first_fault (take 6 (faults (sysfs d))) = None ->
  let d1 := snd (my_i2c_probe cs first d) in
  let d2 := snd (my_i2c_probe cs second d1) in
  fst (my_i2c_probe cs first d) = Some 0 /\
  show_endpoint position_attr d1 buffer = read_position first buffer /\
  fst (my_i2c_probe cs second d1) = Some (- ENOMEM) /\
  visible_files (objects (sysfs d2)) = four_endpoints /\
  show_endpoint position_attr d2 buffer = read_position second buffer /\
  fst (my_i2c_remove cs first d2) = None.
Proof.
  destruct d as [bound [o fs r p]]. cbn [sysfs objects faults]. intros -> Hplan.
  cbv zeta.
  split; [|split; [reflexivity|split; [|split; [|split; [reflexivity|]]]]].
  all: rewrite ?my_i2c_remove_fst, ?my_i2c_probe_fst, ?my_i2c_probe_sysfs.
  all: cbn [sysfs].
  all: split_plan fs 7%nat; cbn in Hplan; try discriminate Hplan; clear Hplan.
  all: decide_by_computation.
Qed.

Lemma second_probe_takes_over_witness :
  show_endpoint position_attr
    (snd (my_i2c_probe kernel_char nak_client
            (snd (my_i2c_probe kernel_char ack_client (module_loaded [])))))
    [x00; x00]
  = read_position nak_client [x00; x00] /\
  fst (my_i2c_remove kernel_char ack_client
         (snd (my_i2c_probe kernel_char nak_client
                 (snd (my_i2c_probe kernel_char ack_client (module_loaded []))))))
  = None.
Proof.
  destruct (second_probe_takes_over kernel_char ack_client nak_client
              (module_loaded []) [x00; x00] eq_refl eq_refl)
    as (_ & _ & _ & _ & Hshow & Hremove).
  exact (conj Hshow Hremove).
Defined.
